(** * Edutech backend: the AI tutor routes

    A shallow embedding of [backend/routes/aiTutorRoutes.js]: the three
    Express handlers [POST /chat], [POST /verify-upi] and
    [POST /process-payment], together with the fragment of JavaScript
    they rely on (truthiness, [||] and [&&], property access with and
    without optional chaining, [String.prototype.split], [charAt],
    [slice], [toUpperCase], and the decimal form of an integer).

    Conventions.
    - A JavaScript value is a [value]: the JSON data that a parsed
      request body, a provider response or a caught error is made of.
    - Strings are Rocq strings holding the text byte by byte; on Basic
      Latin text every string operation below agrees with JavaScript's.
    - A handler returns a [run]: the console and timer effects it
      performed, in order, and either the response it sent or the
      exception its promise rejected with.
    - Conversions of the host that the handlers only pass through
      ([ToString] of a non-string inside a template literal, [ToNumber]
      of a non-number under [>], [JSON.stringify]) are parameters of
      the routes. *)

From Stdlib Require Import ZArith QArith List String Ascii Bool Lia.
Import ListNotations.

Set Warnings "-register-all".

Local Open Scope string_scope.
Local Open Scope Z_scope.

(** ** JavaScript values *)

Module JS.

(** A Number: every double is [NaN], an infinity or a rational. *)
Inductive number : Type :=
| NaN
| Infinity (negative : bool)
| Finite (q : Q).

Inductive value : Type :=
| Undefined
| Null
| Bool (b : bool)
| Number (n : number)
| Str (s : string)
| Array (elems : list value)
| Object (props : list (string * value)).

Definition of_Z (z : Z) : value := Number (Finite (inject_Z z)).

(** Outcome of evaluating code that may throw. *)
Inductive completion (A : Type) : Type :=
| Normal (a : A)
| Throw (e : value).
Arguments Normal {A} a.
Arguments Throw {A} e.

Definition bind {A B : Type} (m : completion A) (k : A -> completion B)
  : completion B :=
  match m with
  | Normal a => k a
  | Throw e => Throw e
  end.

Definition TypeError (msg : string) : value :=
  Object [("name", Str "TypeError"); ("message", Str msg)].

(** *** Truthiness, [||], [&&] *)

Definition number_truthy (n : number) : bool :=
  match n with
  | NaN => false
  | Infinity _ => true
  | Finite q => negb (Qnum q =? 0)
  end.

Definition truthy (v : value) : bool :=
  match v with
  | Undefined | Null => false
  | Bool b => b
  | Number n => number_truthy n
  | Str s => negb (s =? "")%string
  | Array _ | Object _ => true
  end.

Definition falsy (v : value) : bool := negb (truthy v).

(** [a || b] and [a && b]; every right operand in the routes is free of
    effects, so evaluating it eagerly changes nothing. *)
Definition js_or (a b : value) : value := if truthy a then a else b.
Definition js_and (a b : value) : value := if truthy a then b else a.

Definition nullish (v : value) : bool :=
  match v with
  | Undefined | Null => true
  | _ => false
  end.

(** *** Strings *)

(** The one-character string at position [i], or [""] past the end
    ([String.prototype.charAt]). *)
Fixpoint charAt (s : string) (i : nat) : string :=
  match s, i with
  | EmptyString, _ => ""
  | String c _, O => String c ""
  | String _ r, S j => charAt r j
  end.

Fixpoint drop (n : nat) (s : string) : string :=
  match n, s with
  | O, _ => s
  | S m, String _ r => drop m r
  | S _, EmptyString => ""
  end.

(** [s.slice(start)]: from [start] to the end, a negative [start]
    counting from the end of the string. *)
Definition slice (s : string) (start : Z) : string :=
  let len := Z.of_nat (String.length s) in
  let from := if start <? 0 then Z.max (len + start) 0 else Z.min start len in
  drop (Z.to_nat from) s.

(** The capital of a Basic Latin character: the code of a small letter
    lowered by 32.  Characters beyond Basic Latin are outside of the
    model: JavaScript capitalises those from the Unicode case tables,
    and every statement about upper-casing below is made for a Basic
    Latin character. *)
Definition upper (c : ascii) : ascii :=
  let n := nat_of_ascii c in
  if (97 <=? n)%nat && (n <=? 122)%nat then ascii_of_nat (n - 32) else c.

(** [toUpperCase] as it is on Basic Latin text: [a]-[z] go to [A]-[Z],
    every other Basic Latin character is kept. *)
Fixpoint toUpperCase (s : string) : string :=
  match s with
  | EmptyString => ""
  | String c r => String (upper c) (toUpperCase r)
  end.

(** [s.split(sep)] for a one-character separator: the pieces between
    the occurrences of [sep], in order.  There is always at least one
    piece, and [n] occurrences give [n + 1] pieces. *)
Fixpoint split (sep : ascii) (s : string) : list string :=
  match s with
  | EmptyString => [""]
  | String c r =>
      if Ascii.eqb c sep then "" :: split sep r
      else match split sep r with
           | p :: ps => String c p :: ps
           | [] => [String c ""]
           end
  end.

(** *** Decimal form of an integer *)

Definition digit (d : Z) : ascii := ascii_of_nat (48 + Z.to_nat d).

(** Digits of [n > 0] from the least significant one, pushed in front
    of [acc]; [fuel] bounds the number of digits produced. *)
Fixpoint digits (fuel : nat) (n : Z) (acc : string) : string :=
  match fuel with
  | O => acc
  | S f =>
      let acc' := String (digit (n mod 10)) acc in
      if n / 10 =? 0 then acc' else digits f (n / 10) acc'
  end.

Definition decimal (n : Z) : string :=
  digits (S (Z.to_nat (Z.log2 n))) n "".

(** [Number.prototype.toString] on an integer (exact below [10^21],
    which contains every time value). *)
Definition integer_toString (z : Z) : string :=
  if z <? 0 then "-" ++ decimal (- z) else decimal z.

(** *** Property access *)

Fixpoint assoc (k : string) (props : list (string * value)) : option value :=
  match props with
  | [] => None
  | (k', v) :: rest => if (k =? k')%string then Some v else assoc k rest
  end.

Definition own (k : string) (props : list (string * value)) : value :=
  match assoc k props with
  | Some v => v
  | None => Undefined
  end.

(** Value of the property [k] of a value that is neither [undefined]
    nor [null].  The names the routes read are own data properties of
    an object or the [length] of an array or a string; none of them
    is found on a prototype. *)
Definition prop (v : value) (k : string) : value :=
  match v with
  | Object props => own k props
  | Array l =>
      if (k =? "length")%string then of_Z (Z.of_nat (List.length l))
      else Undefined
  | Str s =>
      if (k =? "length")%string then of_Z (Z.of_nat (String.length s))
      else Undefined
  | _ => Undefined
  end.

(** Value of the element [v[i]]. *)
Definition elem (v : value) (i : nat) : value :=
  match v with
  | Object props => own (integer_toString (Z.of_nat i)) props
  | Array l => nth i l Undefined
  | Str s => match charAt s i with
             | EmptyString => Undefined
             | c => Str c
             end
  | _ => Undefined
  end.

(** [v.k] and [v[i]]: a [TypeError] on [undefined] and [null]. *)
Definition get (v : value) (k : string) : completion value :=
  if nullish v
  then Throw (TypeError ("Cannot read properties of undefined or null (reading '" ++ k ++ "')"))
  else Normal (prop v k).

Definition at_ (v : value) (i : nat) : completion value :=
  if nullish v
  then Throw (TypeError "Cannot read properties of undefined or null")
  else Normal (elem v i).

(** [v?.k] and [v?.[i]]. *)
Definition opt (v : value) (k : string) : value :=
  if nullish v then Undefined else prop v k.

Definition opt_at (v : value) (i : nat) : value :=
  if nullish v then Undefined else elem v i.

(** *** Relational comparison with zero *)

Definition number_gt0 (n : number) : bool :=
  match n with
  | NaN => false
  | Infinity negative => negb negative
  | Finite q => 0 <? Qnum q
  end.

End JS.

Import JS.

Notation "x <- m ;; k" := (JS.bind m (fun x => k))
  (at level 61, m at next level, right associativity).

(** ** The routes *)

(** What a handler does besides answering. *)
Inductive effect : Type :=
| ConsoleWarn (args : list value)
| ConsoleError (args : list value)
| Sleep (ms : Z).

(** [res.status(status).json(body)]; [res.json(body)] sends status 200. *)
Inductive reply : Type :=
| Sent (status : Z) (body : value).

Record run : Type := Run {
  trace : list effect;
  result : completion reply
}.

Definition dquote : string := String (ascii_of_nat 34) "".

(** [const { k } = req.body || {}] *)
Definition field (body : value) (k : string) : value :=
  prop (js_or body (Object [])) k.

Definition validation_error (msg : string) : value :=
  Object [("error", Bool true); ("message", Str msg)].

(** A host to run the routes on examples: the conversions as they are
    on a plain object such as [{}]. *)
Definition sample_ToString (_ : value) : completion string :=
  Normal "[object Object]".
Definition sample_ToNumber (_ : value) : completion number := Normal NaN.
Definition sample_stringify (_ : value) : value := Str "{}".

Section Routes.

(** [ToString] of a value that is not a string, [ToNumber] of a value
    that is neither a number, [undefined], [null] nor a boolean, and
    [JSON.stringify]. The first two throw a [TypeError] on an object
    that has no primitive form. *)
Variable ToString_ext : value -> completion string.
Variable ToNumber_ext : value -> completion number.
Variable JSON_stringify : value -> value.

Definition to_string (v : value) : completion string :=
  match v with
  | Str s => Normal s
  | _ => ToString_ext v
  end.

Definition to_number (v : value) : completion number :=
  match v with
  | Number n => Normal n
  | Undefined => Normal NaN
  | Null => Normal (Finite 0)
  | Bool b => Normal (Finite (if b then 1 else 0))
  | _ => ToNumber_ext v
  end.

(** [v > 0] *)
Definition gt0 (v : value) : completion bool :=
  n <- to_number v ;; Normal (number_gt0 n).

(** The template literal [`pre${v}post`]. *)
Definition template (pre : string) (v : value) (post : string)
  : completion string :=
  s <- to_string v ;; Normal (pre ++ s ++ post)%string.

(** *** POST /chat *)

(** Argument of [openai.chat.completions.create]. *)
Definition completion_request (message : value) : value :=
  Object [("model", Str "gpt-3.5-turbo");
          ("messages", Array [Object [("role", Str "user");
                                      ("content", message)]])].

Definition no_reply : value := Str "(no reply from AI)".

(** Lines 36-48: the reply text read off the provider's response. *)
Definition replyText (response : value) : completion value :=
  has_choices <-
    (if truthy (opt response "choices")
     then choices <- get response "choices" ;;
          len <- get choices "length" ;;
          gt0 len
     else Normal false) ;;
  text <-
    (if has_choices
     then choices <- get response "choices" ;;
          first <- at_ choices 0 ;;
          Normal (js_or (opt (opt first "message") "content")
                        (opt first "text"))
     else Normal Null) ;;
  text <-
    (if falsy text && truthy (opt response "data")
     then data <- get response "data" ;;
          Normal (js_or
                    (opt (opt (opt_at (opt data "choices") 0) "message") "content")
                    (opt (opt_at (opt data "choices") 0) "text"))
     else Normal text) ;;
  Normal (if falsy text then no_reply else text).

(** Lines 55-56: the message read off a caught error. *)
Definition errMessage (error : value) : value :=
  js_or
    (js_or
       (js_or (opt (opt (opt (opt error "response") "data") "error") "message")
              (opt error "message"))
       (js_and (opt error "response")
               (JSON_stringify (prop (prop error "response") "data"))))
    (Str "Internal server error").

Definition demo_prefix : string :=
  "Demo reply (OpenAI key not configured). You asked: " ++ dquote.

Definition apology_prefix : string :=
  "Sorry — the AI service is temporarily unavailable. Demo reply: you asked "
  ++ dquote.

Definition apology_suffix : string := dquote ++ ".".

(** The handler of [POST /chat].  [api_key] is the value of
    [process.env.OPENAI_API_KEY] and [create] the awaited provider
    call: it resolves with a response or rejects with an error. *)
Definition chat (body api_key : value) (create : value -> completion value)
  : run :=
  let message := field body "message" in
  if falsy message then
    Run [] (Normal (Sent 400 (validation_error "Message is required")))
  else if falsy api_key then
    Run [ConsoleWarn [Str "OpenAI API key is not set (OPENAI_API_KEY) — returning fallback reply for UI testing"]]
        (fallback <- template demo_prefix message dquote ;;
         Normal (Sent 200 (Object [("reply", Str fallback)])))
  else
    match (response <- create (completion_request message) ;;
           replyText response) with
    | Normal text =>
        Run [] (Normal (Sent 200 (Object [("reply", text)])))
    | Throw error =>
        let err := errMessage error in
        match template apology_prefix message apology_suffix with
        | Normal fallback =>
            Run [ConsoleError [Str "Error in /api/ai/chat:"; error];
                 ConsoleWarn [Str "/api/ai/chat fallback reply returned. Error:"; err]]
                (Normal (Sent 200 (Object [("reply", Str fallback);
                                           ("_debug", Object [("error", err)])])))
        | Throw e =>
            Run [ConsoleError [Str "Error in /api/ai/chat:"; error]] (Throw e)
        end
    end.

(** *** POST /verify-upi *)

Definition blank (part : option string) : bool :=
  match part with
  | Some s => falsy (Str s)
  | None => true
  end.

Definition verify_upi (body : value) : run :=
  let upi := field body "upi" in
  let gateway := field body "gateway" in
  if falsy upi then
    Run [] (Normal (Sent 400 (validation_error "UPI ID is required")))
  else
    match upi with
    | Str s =>
        let parts := split "@" s in
        if negb (List.length parts =? 2)%nat
           || blank (nth_error parts 0) || blank (nth_error parts 1)
        then Run [] (Normal (Sent 400 (validation_error "Invalid UPI ID format")))
        else
          let name := nth 0 parts "" in
          let displayName := (toUpperCase (charAt name 0) ++ slice name 1)%string in
          Run [Sleep 600]
              (Normal (Sent 200 (Object [("verified", Bool true);
                                         ("name", Str displayName);
                                         ("gateway", js_or gateway Null)])))
    | _ => Run [] (Throw (TypeError "upi.split is not a function"))
    end.

(** *** POST /process-payment *)

(** [now] is the value of [Date.now()] once the delay has passed. *)
Definition process_payment (body : value) (now : Z) : run :=
  let method := field body "method" in
  let amount := field body "amount" in
  let details := field body "details" in
  if falsy method || falsy amount then
    Run [] (Normal (Sent 400 (validation_error "method and amount required")))
  else
    let txId := ("TXN-" ++ slice (integer_toString now) (-6))%string in
    Run [Sleep 800]
        (Normal (Sent 200 (Object [("success", Bool true);
                                   ("txId", Str txId);
                                   ("method", method);
                                   ("amount", amount);
                                   ("details", details)]))).

(** ** Vocabulary of the specification *)

(** [c] occurs in [s]. *)
Fixpoint mem (c : ascii) (s : string) : bool :=
  match s with
  | EmptyString => false
  | String c' r => Ascii.eqb c' c || mem c r
  end.

(** A UPI identifier made of exactly two non-empty segments around a
    single [@]. *)
Definition upi_well_formed (s : string) : Prop :=
  exists local domain : string,
    s = (local ++ "@" ++ domain)%string
    /\ local <> "" /\ domain <> ""
    /\ mem "@" local = false /\ mem "@" domain = false.

(** The pieces of a split put back together around the separator. *)
Fixpoint join (sep : ascii) (parts : list string) : string :=
  match parts with
  | [] => ""
  | [p] => p
  | p :: ps => (p ++ String sep (join sep ps))%string
  end.

(** The extractors of the reply text, in priority order: the first
    choice's message content, the first choice's plain text, and the
    same two under a [data] envelope. *)
Definition first_choice (response : value) : value :=
  opt_at (opt response "choices") 0.

Definition extractors (response : value) : list value :=
  [ opt (opt (first_choice response) "message") "content";
    opt (first_choice response) "text";
    opt (opt (first_choice (opt response "data")) "message") "content";
    opt (first_choice (opt response "data")) "text" ].

(** The first value that is something, if any. *)
Fixpoint first_truthy (vs : list value) : option value :=
  match vs with
  | [] => None
  | v :: rest => if truthy v then Some v else first_truthy rest
  end.

Definition reply_chain (response : value) : value :=
  match first_truthy (extractors response) with
  | Some v => v
  | None => no_reply
  end.

(** A value whose element 0 exists exactly when its [length] is
    positive: an array, a string, or a value with neither; not an
    object with keys of its own. *)
Definition sequence_like (v : value) : Prop :=
  match v with
  | Object _ => False
  | _ => True
  end.

(** The six decimal digits of [n mod 10^6]. *)
Definition last_six_digits (n : Z) : string :=
  String (digit (n / 100000 mod 10))
    (String (digit (n / 10000 mod 10))
       (String (digit (n / 1000 mod 10))
          (String (digit (n / 100 mod 10))
             (String (digit (n / 10 mod 10))
                (String (digit (n mod 10)) ""))))).

(** The number that a string of decimal digits denotes, read after
    the digits of [acc]. *)
Fixpoint numeral (acc : Z) (s : string) : Z :=
  match s with
  | EmptyString => acc
  | String c r => numeral (10 * acc + (Z.of_nat (nat_of_ascii c) - 48)) r
  end.

Definition is_digit (c : ascii) : bool :=
  ((48 <=? nat_of_ascii c) && (nat_of_ascii c <=? 57))%nat.

Fixpoint all_digits (s : string) : bool :=
  match s with
  | EmptyString => true
  | String c r => is_digit c && all_digits r
  end.

(** The reading of the [gateway] field under which it is echoed
    verbatim whenever the request supplies it, and is [null] exactly
    when the request omits it. *)
Definition gateway_echoed_verbatim (props : list (string * value)) : Prop :=
  forall body : value,
    result (verify_upi (Object props)) = Normal (Sent 200 body) ->
    (forall g : value, assoc "gateway" props = Some g -> prop body "gateway" = g)
    /\ (prop body "gateway" = Null <-> assoc "gateway" props = None).

(** A response from which no extractor yields anything. *)
Definition unusable (response : value) : Prop :=
  Forall (fun v => truthy v = false) (extractors response).

(** The apology for the message [M], with some debug field. *)
Definition apology_with_debug (M : string) (r : completion reply) : Prop :=
  exists err : value,
    r = Normal (Sent 200 (Object
          [("reply", Str (apology_prefix ++ M ++ apology_suffix));
           ("_debug", Object [("error", err)])])).

(** What was thrown by the provider call, or returned by it with a
    shape no extractor can use. *)
Definition upstream_failure (outcome : completion value) : Prop :=
  match outcome with
  | Throw _ => True
  | Normal response => unusable response
  end.

(** The reading of the chat handler under which every upstream
    failure, thrown or returned, is answered with the apology and a
    debug field. *)
Definition failure_answered_with_apology
  (body api_key : value) (create : value -> completion value) (M : string)
  : Prop :=
  upstream_failure (create (completion_request (Str M))) ->
  apology_with_debug M (result (chat body api_key create)).

(** Number of occurrences of [c] in [s]. *)
Fixpoint count (c : ascii) (s : string) : nat :=
  match s with
  | EmptyString => 0
  | String c' r => ((if Ascii.eqb c' c then 1 else 0) + count c r)%nat
  end.

Definition first_char (s : string) : option ascii :=
  match s with
  | EmptyString => None
  | String c _ => Some c
  end.

Fixpoint last_char (s : string) : option ascii :=
  match s with
  | EmptyString => None
  | String c EmptyString => Some c
  | String _ r => last_char r
  end.

(** A Basic Latin small letter, [a] to [z]. *)
Definition lowercase (c : ascii) : bool :=
  ((97 <=? nat_of_ascii c) && (nat_of_ascii c <=? 122))%nat.

(** The handler answered with HTTP 200. *)
Definition accepted (r : run) : Prop :=
  exists answer : value, result r = Normal (Sent 200 answer).

(** The handler answered with HTTP 400 and the validation message [msg]. *)
Definition refused (msg : string) (r : run) : Prop :=
  r = Run [] (Normal (Sent 400 (validation_error msg))).

(** The two extractors under the [data] envelope. *)
Definition data_extractors (response : value) : list value :=
  [ opt (opt (first_choice (opt response "data")) "message") "content";
    opt (first_choice (opt response "data")) "text" ].

(** The places an error message is looked for, in priority order: the
    message of the provider's error payload, the error's own message,
    the serialised payload of its response. *)
Definition error_candidates (error : value) : list value :=
  [ opt (opt (opt (opt error "response") "data") "error") "message";
    opt error "message";
    js_and (opt error "response")
           (JSON_stringify (prop (prop error "response") "data")) ].


(** The test of line 37, [response?.choices && response.choices.length > 0]. *)
Definition has_choices (response : value) : completion bool :=
  if truthy (opt response "choices")
  then gt0 (prop (opt response "choices") "length")
  else Normal false.

(** The extractors as the handler consults them: the two of the first
    choice only when the test of line 37 holds, the two of the [data]
    envelope without any test. *)
Definition guarded_extractors (guard : bool) (response : value) : list value :=
  [ if guard then opt (opt (first_choice response) "message") "content"
    else Undefined;
    if guard then opt (first_choice response) "text" else Undefined;
    opt (opt (first_choice (opt response "data")) "message") "content";
    opt (first_choice (opt response "data")) "text" ].

(** The first value that is something, else the sentinel. *)
Definition reply_of (candidates : list value) : value :=
  match first_truthy candidates with
  | Some v => v
  | None => no_reply
  end.

(** ** Strings *)

Lemma length_app (s t : string) :
  String.length (s ++ t) = (String.length s + String.length t)%nat.
Proof.
  induction s as [|c s IH]; simpl; [reflexivity | now rewrite IH].
Qed.

Lemma drop_app (s t : string) : drop (String.length s) (s ++ t) = t.
Proof.
  induction s as [|c s IH]; simpl; [now destruct t | exact IH].
Qed.

Lemma slice_suffix (s t : string) :
  t <> "" -> slice (s ++ t) (- Z.of_nat (String.length t)) = t.
Proof.
  intros Ht. unfold slice. rewrite length_app.
  assert (0 < Z.of_nat (String.length t)) by (destruct t; [easy | simpl; lia]).
  destruct (_ <? 0) eqn:E; [|apply Z.ltb_ge in E; lia].
  replace (Z.to_nat _) with (String.length s) by lia.
  apply drop_app.
Qed.

Lemma slice_1 (c : ascii) (s : string) : slice (String c s) 1 = s.
Proof.
  unfold slice. cbn [Z.ltb Z.compare].
  replace (Z.to_nat _) with 1%nat by (simpl String.length; lia).
  reflexivity.
Qed.

(** *** [split] *)

Lemma split_not_nil (sep : ascii) (s : string) : split sep s <> [].
Proof.
  destruct s as [|c r]; simpl; [discriminate|].
  destruct (Ascii.eqb c sep); [discriminate|].
  destruct (split sep r); discriminate.
Qed.

Lemma split_free (sep : ascii) (s : string) :
  mem sep s = false -> split sep s = [s].
Proof.
  induction s as [|c r IH]; simpl; [reflexivity|].
  intros H. apply orb_false_iff in H as [Hc Hr].
  rewrite Hc, (IH Hr). reflexivity.
Qed.

Lemma split_at (sep : ascii) (l r : string) :
  mem sep l = false ->
  split sep (l ++ String sep r) = l :: split sep r.
Proof.
  induction l as [|c l IH]; simpl.
  - intros _. now rewrite Ascii.eqb_refl.
  - intros H. apply orb_false_iff in H as [Hc Hl].
    rewrite Hc, (IH Hl). reflexivity.
Qed.

Lemma join_split (sep : ascii) (s : string) : join sep (split sep s) = s.
Proof.
  induction s as [|c r IH]; [reflexivity|].
  simpl split. destruct (Ascii.eqb c sep) eqn:E.
  - apply Ascii.eqb_eq in E. subst c.
    pose proof (split_not_nil sep r) as N.
    destruct (split sep r) as [|p ps]; [contradiction|].
    change (join sep ("" :: p :: ps)) with (String sep (join sep (p :: ps))).
    now rewrite IH.
  - destruct (split sep r) as [|p ps] eqn:S.
    + now destruct (split_not_nil sep r).
    + destruct ps as [|q qs]; simpl in *; now rewrite IH.
Qed.

Lemma split_pieces_free (sep : ascii) (s : string) :
  Forall (fun p => mem sep p = false) (split sep s).
Proof.
  induction s as [|c r IH]; simpl.
  - now constructor.
  - destruct (Ascii.eqb c sep) eqn:E.
    + now constructor.
    + destruct (split sep r) as [|p ps].
      * constructor; [simpl; now rewrite E | constructor].
      * inversion IH; subst. constructor; [|assumption].
        simpl. now rewrite E.
Qed.

(** A split in two pieces comes from exactly one separator. *)
Lemma split_two (sep : ascii) (s a b : string) :
  split sep s = [a; b] ->
  s = (a ++ String sep b)%string /\ mem sep a = false /\ mem sep b = false.
Proof.
  intros H.
  pose proof (join_split sep s) as J.
  pose proof (split_pieces_free sep s) as F.
  rewrite H in J, F. simpl in J.
  inversion F as [|? ? Fa F']; subst. inversion F' as [|? ? Fb _]; subst.
  auto.
Qed.

(** ** POST /verify-upi *)

Lemma falsy_Str (s : string) : s <> "" -> falsy (Str s) = false.
Proof.
  intros H. unfold falsy. simpl.
  apply String.eqb_neq in H. now rewrite H.
Qed.

Lemma falsy_Str_inv (s : string) : falsy (Str s) = false -> s <> "".
Proof.
  unfold falsy. simpl. intros H E. subst s. discriminate.
Qed.

Lemma app_not_empty (l r : string) : l <> "" -> (l ++ r)%string <> "".
Proof. destruct l; [easy | discriminate]. Qed.

(** A well-formed identifier passes the validation; the handler
    answers after the delay. *)
Lemma verify_upi_accepts (body : value) (local domain : string) :
  field body "upi" = Str (local ++ "@" ++ domain) ->
  local <> "" -> domain <> "" ->
  mem "@" local = false -> mem "@" domain = false ->
  verify_upi body =
  Run [Sleep 600]
      (Normal (Sent 200 (Object
         [("verified", Bool true);
          ("name", Str (toUpperCase (charAt local 0) ++ slice local 1));
          ("gateway", js_or (field body "gateway") Null)]))).
Proof.
  intros Hupi Hl Hd Fl Fd. unfold verify_upi. rewrite Hupi.
  rewrite (falsy_Str _ (app_not_empty _ _ Hl)).
  change ("@" ++ domain)%string with (String "@" domain).
  rewrite (split_at _ _ _ Fl), (split_free _ _ Fd).
  cbn [List.length Nat.eqb negb orb nth_error blank nth].
  now rewrite (falsy_Str _ Hl), (falsy_Str _ Hd).
Qed.

(** Whatever passes the validation is well formed. *)
Lemma verify_upi_rejects (body : value) (s : string) :
  field body "upi" = Str s -> s <> "" -> ~ upi_well_formed s ->
  verify_upi body =
  Run [] (Normal (Sent 400 (validation_error "Invalid UPI ID format"))).
Proof.
  intros Hupi Hs Hbad. unfold verify_upi. rewrite Hupi, (falsy_Str _ Hs).
  destruct (negb _ || _ || _) eqn:E; [reflexivity | exfalso; apply Hbad].
  apply orb_false_iff in E as [E Eb]. apply orb_false_iff in E as [El Ea].
  apply negb_false_iff, Nat.eqb_eq in El.
  destruct (split "@" s) as [|a [|b [|c ps]]] eqn:S; try discriminate El.
  simpl in Ea, Eb. apply split_two in S as (-> & Fa & Fb).
  exists a, b. repeat split; auto using falsy_Str_inv.
Qed.

Lemma verify_upi_required (body : value) :
  truthy (field body "upi") = false ->
  verify_upi body =
  Run [] (Normal (Sent 400 (validation_error "UPI ID is required"))).
Proof.
  intros H. unfold verify_upi, falsy. now rewrite H.
Qed.

(** C3. A present (non-empty) [upi] string that is not made of two
    non-empty segments around a single [@] is answered with HTTP 400
    and [{error:true, message:"Invalid UPI ID format"}]; an absent or
    empty [upi], like every falsy one, is answered with HTTP 400 and
    [{error:true, message:"UPI ID is required"}]. *)
Theorem C3_verify_upi_validation (body : value) :
  (forall s : string,
      field body "upi" = Str s -> s <> "" -> ~ upi_well_formed s ->
      verify_upi body =
      Run [] (Normal (Sent 400 (Object [("error", Bool true);
                                        ("message", Str "Invalid UPI ID format")]))))
  /\ (field body "upi" = Undefined \/ field body "upi" = Str ""
        \/ truthy (field body "upi") = false ->
      verify_upi body =
      Run [] (Normal (Sent 400 (Object [("error", Bool true);
                                        ("message", Str "UPI ID is required")])))).
Proof.
  split.
  - intros s. apply verify_upi_rejects.
  - intros H. apply verify_upi_required.
    destruct H as [-> | [-> | H]]; auto.
Qed.



Lemma field_missing (props : list (string * value)) (k : string) :
  assoc k props = None -> field (Object props) k = Undefined.
Proof.
  intros H. unfold field, js_or. cbn [truthy prop]. unfold own. now rewrite H.
Qed.

(** C5, as the handler has it. For every valid verify-upi request the
    [gateway] field of the response is the request's [gateway] when
    that value is truthy, and [null] when it is falsy (the empty
    string, [0], [false], [null]) or omitted. *)
Theorem C5_verify_upi_gateway (body : value) (s : string) :
  field body "upi" = Str s -> upi_well_formed s ->
  exists name gateway : value,
    result (verify_upi body) =
    Normal (Sent 200 (Object [("verified", Bool true);
                              ("name", name);
                              ("gateway", gateway)]))
    /\ (truthy (field body "gateway") = true -> gateway = field body "gateway")
    /\ (truthy (field body "gateway") = false -> gateway = Null)
    /\ (forall props, body = Object props -> assoc "gateway" props = None ->
        gateway = Null).
Proof.
  intros Hupi (local & domain & -> & Hl & Hd & Fl & Fd).
  rewrite (verify_upi_accepts body local domain Hupi Hl Hd Fl Fd).
  eexists _, _. split; [reflexivity|]. unfold js_or.
  repeat split.
  - now intros ->.
  - now intros ->.
  - intros props -> H. now rewrite (field_missing _ _ H).
Qed.

(** ** POST /process-payment *)

Lemma app_assoc_str (s t u : string) : ((s ++ t) ++ u = s ++ (t ++ u))%string.
Proof.
  induction s as [|c s IH]; simpl; [reflexivity | now rewrite IH].
Qed.

(** [digits] only ever pushes in front of its accumulator. *)
Lemma digits_acc (fuel : nat) : forall (n : Z) (acc : string),
  exists pre : string, digits fuel n acc = (pre ++ acc)%string.
Proof.
  induction fuel as [|fuel IH]; intros n acc; simpl.
  - now exists "".
  - destruct (n / 10 =? 0).
    + now exists (String (digit (n mod 10)) "").
    + destruct (IH (n / 10) (String (digit (n mod 10)) acc)) as [pre ->].
      exists (pre ++ String (digit (n mod 10)) "")%string.
      now rewrite app_assoc_str.
Qed.

Lemma digits_step (fuel : nat) (n : Z) (acc : string) :
  n / 10 <> 0 ->
  digits (S fuel) n acc = digits fuel (n / 10) (String (digit (n mod 10)) acc).
Proof.
  intros H. simpl. apply Z.eqb_neq in H. now rewrite H.
Qed.

(** The decimal form of a number of six digits or more ends with the
    digits of its residue modulo [10^6]. *)
Lemma decimal_last_six (n : Z) :
  100000 <= n ->
  exists pre : string, decimal n = (pre ++ last_six_digits n)%string.
Proof.
  intros H. unfold decimal.
  assert (L : 16 <= Z.log2 n) by (apply (Z.log2_le_mono 100000 n); lia).
  destruct (Z.to_nat (Z.log2 n)) as [|[|[|[|[|f]]]]] eqn:F; try lia.
  assert (D2 : n / 10 / 10 = n / 100) by (rewrite Z.div_div by lia; reflexivity).
  assert (D3 : n / 100 / 10 = n / 1000) by (rewrite Z.div_div by lia; reflexivity).
  assert (D4 : n / 1000 / 10 = n / 10000) by (rewrite Z.div_div by lia; reflexivity).
  assert (D5 : n / 10000 / 10 = n / 100000) by (rewrite Z.div_div by lia; reflexivity).
  assert (N1 : n / 10 <> 0) by (Z.to_euclidean_division_equations; lia).
  assert (N2 : n / 100 <> 0) by (Z.to_euclidean_division_equations; lia).
  assert (N3 : n / 1000 <> 0) by (Z.to_euclidean_division_equations; lia).
  assert (N4 : n / 10000 <> 0) by (Z.to_euclidean_division_equations; lia).
  assert (N5 : n / 100000 <> 0) by (Z.to_euclidean_division_equations; lia).
  rewrite (digits_step _ n) by exact N1.
  rewrite (digits_step _ (n / 10)) by now rewrite D2.
  rewrite D2, (digits_step _ (n / 100)) by now rewrite D3.
  rewrite D3, (digits_step _ (n / 1000)) by now rewrite D4.
  rewrite D4, (digits_step _ (n / 10000)) by now rewrite D5.
  rewrite D5. cbn [digits].
  destruct (n / 100000 / 10 =? 0).
  - now exists "".
  - apply digits_acc.
Qed.

Lemma is_digit_digit (d : Z) : 0 <= d < 10 -> is_digit (digit d) = true.
Proof.
  intros H.
  assert (E : d = 0 \/ d = 1 \/ d = 2 \/ d = 3 \/ d = 4 \/ d = 5
              \/ d = 6 \/ d = 7 \/ d = 8 \/ d = 9) by lia.
  repeat (destruct E as [-> | E]; [reflexivity|]). now subst d.
Qed.

Lemma digit_value (d : Z) :
  0 <= d < 10 -> Z.of_nat (nat_of_ascii (digit d)) - 48 = d.
Proof.
  intros H.
  assert (E : d = 0 \/ d = 1 \/ d = 2 \/ d = 3 \/ d = 4 \/ d = 5
              \/ d = 6 \/ d = 7 \/ d = 8 \/ d = 9) by lia.
  repeat (destruct E as [-> | E]; [reflexivity|]). now subst d.
Qed.

(** With one unit of fuel per bit, [digits] writes the whole number. *)
Lemma digits_numeral (fuel : nat) : forall (n : Z) (acc : string),
  0 <= n < 2 ^ Z.of_nat fuel ->
  numeral 0 (digits fuel n acc) = numeral n acc.
Proof.
  induction fuel as [|fuel IH]; intros n acc H.
  - change (2 ^ Z.of_nat 0) with 1 in H. now replace n with 0 by lia.
  - rewrite Nat2Z.inj_succ, Z.pow_succ_r in H by lia.
    assert (B : 0 <= n mod 10 < 10) by (apply Z.mod_pos_bound; lia).
    pose proof (Z.div_mod n 10 ltac:(lia)) as D.
    simpl digits. destruct (n / 10 =? 0) eqn:E.
    + apply Z.eqb_eq in E. cbn [numeral]. rewrite (digit_value _ B).
      f_equal. lia.
    + rewrite IH by (Z.to_euclidean_division_equations; lia).
      cbn [numeral]. rewrite (digit_value _ B). f_equal. lia.
Qed.

(** The decimal form of a natural number denotes that number. *)
Lemma decimal_faithful (n : Z) : 0 <= n -> numeral 0 (decimal n) = n.
Proof.
  intros H. unfold decimal.
  rewrite digits_numeral; [reflexivity|].
  rewrite Nat2Z.inj_succ, Z2Nat.id by apply Z.log2_nonneg.
  destruct (Z.eq_dec n 0) as [-> | N]; [now compute|].
  split; [lia | apply Z.log2_spec; lia].
Qed.

Lemma last_six_digits_shape (n : Z) :
  String.length (last_six_digits n) = 6%nat
  /\ all_digits (last_six_digits n) = true.
Proof.
  split; [reflexivity|].
  unfold last_six_digits. cbn [all_digits].
  rewrite !is_digit_digit by (apply Z.mod_pos_bound; lia).
  reflexivity.
Qed.

Lemma txId_last_six (now : Z) :
  100000 <= now ->
  slice (integer_toString now) (-6) = last_six_digits now.
Proof.
  intros H. unfold integer_toString.
  destruct (now <? 0) eqn:E; [apply Z.ltb_lt in E; lia|].
  destruct (decimal_last_six now H) as [pre ->].
  apply (slice_suffix pre (last_six_digits now)). discriminate.
Qed.

(** C6. A process-payment request whose [method] or [amount] is
    missing or falsy is answered with HTTP 400 and
    [{error:true, message:"method and amount required"}]; nothing else
    is checked: with both truthy, whatever their type or range, the
    request is accepted and [amount] handed back as it came. *)
Theorem C6_process_payment_validation (body : value) (now : Z) :
  (truthy (field body "method") = false \/ truthy (field body "amount") = false ->
   process_payment body now =
   Run [] (Normal (Sent 400 (Object [("error", Bool true);
                                     ("message", Str "method and amount required")]))))
  /\ (forall props,
        body = Object props ->
        assoc "method" props = None \/ assoc "amount" props = None ->
        process_payment body now =
        Run [] (Normal (Sent 400 (Object [("error", Bool true);
                                          ("message", Str "method and amount required")]))))
  /\ (truthy (field body "method") = true -> truthy (field body "amount") = true ->
      exists txId : string,
        process_payment body now =
        Run [Sleep 800]
            (Normal (Sent 200 (Object [("success", Bool true);
                                       ("txId", Str txId);
                                       ("method", field body "method");
                                       ("amount", field body "amount");
                                       ("details", field body "details")])))).
Proof.
  assert (R : truthy (field body "method") = false
              \/ truthy (field body "amount") = false ->
              process_payment body now =
              Run [] (Normal (Sent 400 (validation_error "method and amount required")))).
  { intros H. unfold process_payment, falsy.
    destruct H as [-> | ->]; [reflexivity | now rewrite orb_true_r]. }
  split; [exact R | split].
  - intros props -> H. apply R.
    destruct H as [H | H]; rewrite (field_missing _ _ H); auto.
  - intros Hm Ha. unfold process_payment, falsy. rewrite Hm, Ha.
    eexists. reflexivity.
Qed.

(** C7. A valid process-payment request (truthy [method] and [amount])
    is answered with [success:true], a [txId] made of ["TXN-"] and
    exactly six digits, the last six digits of the timestamp, and with
    [method], [amount] and [details] unchanged.  The timestamp is one
    of six digits or more, as [Date.now()] is from 100 seconds after
    the epoch onwards. *)
Theorem C7_process_payment_success (body : value) (now : Z) :
  truthy (field body "method") = true ->
  truthy (field body "amount") = true ->
  100000 <= now ->
  result (process_payment body now) =
  Normal (Sent 200 (Object [("success", Bool true);
                            ("txId", Str ("TXN-" ++ last_six_digits now));
                            ("method", field body "method");
                            ("amount", field body "amount");
                            ("details", field body "details")]))
  /\ String.length (last_six_digits now) = 6%nat
  /\ all_digits (last_six_digits now) = true.
Proof.
  intros Hm Ha Hnow. split; [|apply last_six_digits_shape].
  unfold process_payment, falsy. rewrite Hm, Ha.
  cbn [negb orb result]. now rewrite (txId_last_six now Hnow).
Qed.

(** ** POST /chat *)

(** *** The reply text *)

Lemma first_truthy_None (vs : list value) :
  first_truthy vs = None <-> Forall (fun v => truthy v = false) vs.
Proof.
  induction vs as [|v vs IH]; simpl.
  - split; [constructor | reflexivity].
  - destruct (truthy v) eqn:T; split; intros H.
    + discriminate.
    + inversion H; congruence.
    + constructor; [assumption | now apply IH].
    + inversion H; now apply IH.
Qed.

Lemma first_truthy_Some (vs : list value) (v : value) :
  first_truthy vs = Some v -> truthy v = true /\ In v vs.
Proof.
  induction vs as [|w vs IH]; simpl; [discriminate|].
  destruct (truthy w) eqn:T.
  - intros [= <-]. auto.
  - intros H. destruct (IH H). auto.
Qed.

(** A guarded access does not throw. *)
Lemma get_truthy (v : value) (k : string) :
  truthy (opt v k) = true -> get v k = Normal (opt v k).
Proof.
  unfold opt, get. now destruct (nullish v).
Qed.

Lemma at_truthy (v : value) (i : nat) :
  truthy v = true -> at_ v i = Normal (opt_at v i).
Proof.
  unfold opt_at, at_. now destruct v.
Qed.

(** On a sequence-like value the test [length > 0] succeeds, and fails
    only where there is no element 0. *)
Lemma length_guard (c : value) :
  sequence_like c -> truthy c = true ->
  exists b : bool,
    (len <- get c "length" ;; gt0 len) = Normal b
    /\ (b = false -> opt_at c 0 = Undefined).
Proof.
  destruct c as [| |b|n|s|l|props]; simpl; intros Hs Ht;
    try discriminate; try contradiction.
  - now exists false.
  - now exists false.
  - exists (0 <? Z.of_nat (String.length s)). split; [reflexivity|].
    destruct s; [discriminate | intros H; simpl in H; discriminate].
  - exists (0 <? Z.of_nat (List.length l)). split; [reflexivity|].
    destruct l; [reflexivity | intros H; simpl in H; discriminate].
Qed.

Lemma falsy_first (c : value) :
  sequence_like c -> truthy c = false -> opt_at c 0 = Undefined.
Proof.
  destruct c as [| |b|n|s|l|props]; simpl; intros Hs Ht;
    try reflexivity; try discriminate; try contradiction.
  destruct s; [reflexivity | discriminate].
Qed.

Lemma falsy_choices (d : value) :
  truthy d = false -> opt d "choices" = Undefined.
Proof.
  destruct d as [| |b|n|s|l|props]; simpl; intros Ht;
    try reflexivity; discriminate.
Qed.

(** From the [data] envelope onwards (lines 43-48). *)
Lemma replyText_data (response text : value) :
  (text' <-
     (if falsy text && truthy (opt response "data")
      then data <- get response "data" ;;
           Normal (js_or
                     (opt (opt (opt_at (opt data "choices") 0) "message") "content")
                     (opt (opt_at (opt data "choices") 0) "text"))
      else Normal text) ;;
   Normal (if falsy text' then no_reply else text'))
  = Normal (if truthy text then text
            else match first_truthy
                         [opt (opt (first_choice (opt response "data")) "message") "content";
                          opt (first_choice (opt response "data")) "text"] with
                 | Some v => v
                 | None => no_reply
                 end).
Proof.
  unfold falsy, first_choice. destruct (truthy text) eqn:T; cbn [negb andb bind].
  - now rewrite T.
  - destruct (truthy (opt response "data")) eqn:D.
    + rewrite (get_truthy _ _ D). cbn [bind first_truthy]. unfold js_or.
      destruct (truthy (opt (opt _ "message") "content")) eqn:E1.
      * now rewrite E1.
      * now destruct (truthy (opt (opt_at _ 0) "text")).
    + cbn [bind]. rewrite T, (falsy_choices _ D). reflexivity.
Qed.

(** The reply text is the ordered chain of the four extractors. *)
Lemma replyText_chain (response : value) :
  sequence_like (opt response "choices") ->
  replyText response = Normal (reply_chain response).
Proof.
  intros Hs. unfold replyText, reply_chain, extractors.
  unfold first_choice at 1 2.
  destruct (truthy (opt response "choices")) eqn:C.
  - rewrite (get_truthy _ _ C). cbn [bind].
    destruct (length_guard _ Hs C) as (b & -> & Hb). cbn [bind].
    destruct b.
    + rewrite (at_truthy _ 0 C). cbn [bind].
      etransitivity; [apply replyText_data|]. unfold js_or. cbn [first_truthy].
      destruct (truthy (opt (opt _ "message") "content")) eqn:E1.
      * now rewrite E1.
      * now destruct (truthy (opt (opt_at _ 0) "text")).
    + etransitivity; [apply replyText_data|].
      rewrite (Hb eq_refl). reflexivity.
  - cbn [bind]. etransitivity; [apply replyText_data|].
    rewrite (falsy_first _ Hs C). reflexivity.
Qed.

Lemma get_prop_truthy (v : value) (k : string) :
  truthy v = true -> get v k = Normal (prop v k).
Proof.
  unfold get. now destruct v.
Qed.

(** The reply text, for every response: the test of line 37, and then
    the first extractor that yields something. *)
Lemma replyText_guarded (response : value) :
  replyText response =
  (guard <- has_choices response ;;
   Normal (reply_of (guarded_extractors guard response))).
Proof.
  unfold replyText, has_choices, reply_of, guarded_extractors.
  unfold first_choice at 1 2.
  destruct (truthy (opt response "choices")) eqn:C.
  - rewrite (get_truthy _ _ C). cbn [bind].
    rewrite (get_prop_truthy _ "length" C). cbn [bind].
    destruct (gt0 (prop (opt response "choices") "length")) as [guard|e];
      [|reflexivity].
    cbn [bind]. destruct guard.
    + rewrite (at_truthy _ 0 C). cbn [bind].
      etransitivity; [apply replyText_data|].
      unfold js_or. cbn [first_truthy].
      destruct (truthy (opt (opt _ "message") "content")) eqn:E1.
      * now rewrite E1.
      * now destruct (truthy (opt (opt_at _ 0) "text")).
    + etransitivity; [apply replyText_data | reflexivity].
  - cbn [bind]. etransitivity; [apply replyText_data | reflexivity].
Qed.

(** C9, as the handler has it. For every provider response the reply
    text is fixed by an ordered chain of extractors: the first choice's
    message content, then its plain text, both consulted only when
    [choices] is truthy and [choices.length > 0], then the same two
    under the [data] envelope, consulted without such a test; the
    first one that yields something is the reply.  The reply is the
    sentinel ["(no reply from AI)"] whenever every extractor so
    consulted yields nothing, and only then, unless the first
    extractor that yields something yields that very string.  When the
    test [choices.length > 0] itself throws there is no reply text.
    On a response whose [choices] is absent, a list, a string or
    another primitive the test never throws and holds exactly when
    there is a first choice, so that the four extractors need no test. *)
Theorem C9_reply_text_chain (response : value) :
  replyText response =
  (guard <- has_choices response ;;
   Normal (reply_of (guarded_extractors guard response)))
  /\ (forall guard : bool,
        has_choices response = Normal guard ->
        (forall v : value,
            first_truthy (guarded_extractors guard response) = Some v ->
            replyText response = Normal v /\ truthy v = true)
        /\ (Forall (fun v => truthy v = false) (guarded_extractors guard response) ->
            replyText response = Normal no_reply)
        /\ (replyText response = Normal no_reply <->
            Forall (fun v => truthy v = false) (guarded_extractors guard response)
            \/ first_truthy (guarded_extractors guard response) = Some no_reply))
  /\ (forall e : value,
        has_choices response = Throw e -> replyText response = Throw e)
  /\ (sequence_like (opt response "choices") ->
      replyText response = Normal (reply_chain response)).
Proof.
  pose proof (replyText_guarded response) as R.
  split; [exact R | split; [|split]].
  - intros guard G. rewrite G in R. cbn [bind] in R. unfold reply_of in R.
    repeat split.
    + rewrite R. now rewrite H.
    + now apply first_truthy_Some in H.
    + intros U. apply first_truthy_None in U. rewrite R. now rewrite U.
    + intros E. rewrite R in E.
      destruct (first_truthy (guarded_extractors guard response)) as [v|] eqn:F.
      * right. congruence.
      * left. now apply first_truthy_None.
    + intros [U | F]; rewrite R.
      * apply first_truthy_None in U. now rewrite U.
      * now rewrite F.
  - intros e G. rewrite R, G. reflexivity.
  - apply replyText_chain.
Qed.

(** *** The handler *)

(** C8. A chat request whose [message] is empty or missing, or falsy
    in any other way, is answered with HTTP 400 and the exact body
    [{error:true, message:"Message is required"}]. *)
Theorem C8_chat_message_required
  (body api_key : value) (create : value -> completion value) :
  field body "message" = Undefined \/ field body "message" = Str ""
  \/ truthy (field body "message") = false ->
  chat body api_key create =
  Run [] (Normal (Sent 400 (Object [("error", Bool true);
                                    ("message", Str "Message is required")]))).
Proof.
  intros H.
  assert (F : falsy (field body "message") = true)
    by (destruct H as [-> | [-> | H]]; [reflexivity | reflexivity |];
        unfold falsy; now rewrite H).
  unfold chat. now rewrite F.
Qed.

(** C2. With no provider credential configured, a non-empty message
    string [M] is answered with HTTP 200 and a reply that contains [M]
    verbatim: the demo sentence closed by [M] between double quotes. *)
Theorem C2_chat_demo_reply
  (body api_key : value) (create : value -> completion value) (M : string) :
  field body "message" = Str M -> M <> "" ->
  truthy api_key = false ->
  result (chat body api_key create) =
  Normal (Sent 200 (Object
    [("reply",
      Str ("Demo reply (OpenAI key not configured). You asked: "
           ++ dquote ++ M ++ dquote))]))
  /\ exists reply before after : string,
      result (chat body api_key create) =
      Normal (Sent 200 (Object [("reply", Str reply)]))
      /\ reply = (before ++ M ++ after)%string.
Proof.
  intros Hm HM Hk.
  assert (E : result (chat body api_key create) =
              Normal (Sent 200 (Object
                [("reply", Str (demo_prefix ++ M ++ dquote))]))).
  { unfold chat, falsy. rewrite Hm, Hk.
    apply String.eqb_neq in HM. cbn [truthy]. rewrite HM. reflexivity. }
  split.
  - rewrite E. unfold demo_prefix. now rewrite app_assoc_str.
  - exists (demo_prefix ++ M ++ dquote)%string, demo_prefix, dquote.
    now split.
Qed.

(** With a credential, a non-empty message string goes to the
    provider: a reply text is sent as it is, anything thrown is turned
    into the apology. *)
Lemma chat_live
  (body api_key : value) (create : value -> completion value) (M : string) :
  field body "message" = Str M -> M <> "" ->
  truthy api_key = true ->
  result (chat body api_key create) =
  match (response <- create (completion_request (Str M)) ;;
         replyText response) with
  | Normal text => Normal (Sent 200 (Object [("reply", text)]))
  | Throw error =>
      Normal (Sent 200 (Object
        [("reply", Str (apology_prefix ++ M ++ apology_suffix));
         ("_debug", Object [("error", errMessage error)])]))
  end.
Proof.
  intros Hm HM Hk. unfold chat, falsy. rewrite Hm, Hk.
  apply String.eqb_neq in HM. cbn [truthy]. rewrite HM. cbn [negb].
  now destruct (bind _ _).
Qed.

Lemma falsy_opt (d : value) (k : string) :
  (k =? "length")%string = false -> truthy d = false -> opt d k = Undefined.
Proof.
  intros Hk Ht. unfold opt.
  destruct d as [| |b|n|s|l|props]; cbn [nullish prop];
    try reflexivity; try discriminate Ht.
  now rewrite Hk.
Qed.

(** The message read off an error that carries no [response]. *)
Lemma errMessage_plain (error : value) :
  truthy (opt error "response") = false ->
  errMessage error = js_or (opt error "message") (Str "Internal server error").
Proof.
  intros H. unfold errMessage.
  rewrite (falsy_opt _ "data" eq_refl H).
  unfold js_and. rewrite H.
  change (opt (opt Undefined "error") "message") with Undefined.
  unfold js_or at 3. cbn [truthy].
  unfold js_or. destruct (truthy (opt error "message")) eqn:E.
  - now rewrite E.
  - now rewrite H.
Qed.

(** C1, as the handler has it. For a non-empty message string and a
    configured credential no upstream failure is answered with a
    server error, the answer is always HTTP 200: when the provider
    call throws, with the apology for a reply and a debug field that
    carries the message read off the error; when the provider returns
    a response from which no extractor yields anything, with the reply
    ["(no reply from AI)"] and no debug field. *)
Theorem C1_chat_upstream_failure
  (body api_key : value) (create : value -> completion value) (M : string) :
  field body "message" = Str M -> M <> "" ->
  truthy api_key = true ->
  (forall error : value,
      create (completion_request (Str M)) = Throw error ->
      result (chat body api_key create) =
      Normal (Sent 200 (Object
        [("reply", Str (apology_prefix ++ M ++ apology_suffix));
         ("_debug", Object [("error", errMessage error)])]))
      /\ (truthy (opt error "response") = false ->
          truthy (opt error "message") = true ->
          errMessage error = opt error "message"))
  /\ (forall response : value,
        create (completion_request (Str M)) = Normal response ->
        sequence_like (opt response "choices") ->
        unusable response ->
        result (chat body api_key create) =
        Normal (Sent 200 (Object [("reply", Str "(no reply from AI)")])))
  /\ (exists answer : value,
        result (chat body api_key create) = Normal (Sent 200 answer)).
Proof.
  intros Hm HM Hk. rewrite (chat_live body api_key create M Hm HM Hk).
  repeat split.
  - rewrite H. reflexivity.
  - intros Hr He. rewrite (errMessage_plain _ Hr). unfold js_or. now rewrite He.
  - intros response Hc Hs Hu. rewrite Hc. cbn [bind].
    rewrite (replyText_chain response Hs). unfold reply_chain.
    apply first_truthy_None in Hu. now rewrite Hu.
  - destruct (bind _ _); eexists; reflexivity.
Qed.

(** C10. A request with no body at all ([undefined] or [null]) is read
    as the empty object by each of the three handlers and answered
    with that handler's HTTP 400 validation error, exactly as a body
    that lacks the required fields. *)
Theorem C10_absent_body
  (body api_key : value) (create : value -> completion value) (now : Z) :
  body = Undefined \/ body = Null ->
  (chat body api_key create =
   Run [] (Normal (Sent 400 (validation_error "Message is required")))
   /\ verify_upi body =
      Run [] (Normal (Sent 400 (validation_error "UPI ID is required")))
   /\ process_payment body now =
      Run [] (Normal (Sent 400 (validation_error "method and amount required"))))
  /\ (chat body api_key create = chat (Object []) api_key create
      /\ verify_upi body = verify_upi (Object [])
      /\ process_payment body now = process_payment (Object []) now)
  /\ (forall props : list (string * value),
        (assoc "message" props = None ->
         chat body api_key create = chat (Object props) api_key create)
        /\ (assoc "upi" props = None ->
            verify_upi body = verify_upi (Object props))
        /\ (assoc "method" props = None -> assoc "amount" props = None ->
            process_payment body now = process_payment (Object props) now)).
Proof.
  intros H.
  assert (F : forall k, field body k = Undefined)
    by (destruct H as [-> | ->]; reflexivity).
  assert (E : chat body api_key create =
              Run [] (Normal (Sent 400 (validation_error "Message is required")))
              /\ verify_upi body =
                 Run [] (Normal (Sent 400 (validation_error "UPI ID is required")))
              /\ process_payment body now =
                 Run [] (Normal (Sent 400
                   (validation_error "method and amount required")))).
  { unfold chat, verify_upi, process_payment. rewrite !F. now repeat split. }
  destruct E as (Ec & Eu & Ep). rewrite Ec, Eu, Ep.
  split; [now repeat split | split; [now repeat split|]].
  intros props. repeat split.
  - intros Hn. unfold chat. now rewrite (field_missing _ _ Hn).
  - intros Hn. unfold verify_upi. now rewrite (field_missing _ _ Hn).
  - intros Hn _. unfold process_payment. now rewrite (field_missing _ _ Hn).
Qed.

(** ** Further properties of the routes *)

(** *** POST /verify-upi *)

(** X1. A truthy [upi] that is not a string (a number, [true], an
    array, an object) has no [split] method: the handler throws a
    [TypeError] before it waits or answers. *)
Theorem X1_verify_upi_not_a_string (body : value) :
  truthy (field body "upi") = true ->
  (forall s : string, field body "upi" <> Str s) ->
  verify_upi body = Run [] (Throw (TypeError "upi.split is not a function")).
Proof.
  intros Ht Hs. unfold verify_upi, falsy. rewrite Ht. cbn [negb].
  destruct (field body "upi") as [| |b|n|s|l|props]; try reflexivity.
  now destruct (Hs s).
Qed.

(** A string [upi] is either well formed or refused. *)
Lemma verify_upi_decides (body : value) (s : string) :
  field body "upi" = Str s ->
  upi_well_formed s
  \/ exists msg : string, refused msg (verify_upi body).
Proof.
  intros Hupi. destruct (string_dec s "") as [-> | Hs].
  - right. exists "UPI ID is required". apply verify_upi_required.
    now rewrite Hupi.
  - unfold refused, verify_upi. rewrite Hupi, (falsy_Str _ Hs).
    destruct (negb _ || _ || _) eqn:E; [right; now eexists | left].
    apply orb_false_iff in E as [E Eb]. apply orb_false_iff in E as [El Ea].
    apply negb_false_iff, Nat.eqb_eq in El.
    destruct (split "@" s) as [|a [|b [|c ps]]] eqn:S; try discriminate El.
    simpl in Ea, Eb. apply split_two in S as (-> & Fa & Fb).
    exists a, b. repeat split; auto using falsy_Str_inv.
Qed.

Lemma count_free (c : ascii) (s : string) :
  count c s = 0%nat <-> mem c s = false.
Proof.
  induction s as [|a s IH]; simpl; [tauto|].
  destruct (Ascii.eqb a c); simpl; [split; discriminate | exact IH].
Qed.

Lemma count_app (c : ascii) (l r : string) :
  count c (l ++ r) = (count c l + count c r)%nat.
Proof.
  induction l as [|a l IH]; simpl; [reflexivity | rewrite IH; lia].
Qed.

(** A single occurrence cuts the string in two pieces free of it. *)
Lemma count_one (c : ascii) (s : string) :
  count c s = 1%nat ->
  exists l d : string,
    s = (l ++ String c d)%string /\ mem c l = false /\ mem c d = false.
Proof.
  induction s as [|a s IH]; simpl; [discriminate|].
  destruct (Ascii.eqb a c) eqn:E; simpl; intros H.
  - apply Ascii.eqb_eq in E. subst a.
    exists "", s. repeat split. apply count_free. lia.
  - destruct (IH H) as (l & d & -> & Fl & Fd).
    exists (String a l), d. repeat split; [|assumption].
    simpl. now rewrite E.
Qed.

Lemma last_char_app (l r : string) :
  r <> "" -> last_char (l ++ r) = last_char r.
Proof.
  intros Hr. induction l as [|a l IH]; [reflexivity|].
  simpl. rewrite IH. destruct (l ++ r)%string eqn:E; [|reflexivity].
  destruct l; [now destruct Hr | discriminate E].
Qed.

Lemma last_char_mem (c : ascii) (s : string) :
  last_char s = Some c -> mem c s = true.
Proof.
  induction s as [|a s IH]; [discriminate|].
  simpl. destruct s as [|b s].
  - intros [= ->]. now rewrite Ascii.eqb_refl.
  - intros H. rewrite (IH H). apply orb_true_r.
Qed.

(** Two non-empty segments around a single [@]: exactly one [@], at
    neither end. *)
Lemma well_formed_single_separator (s : string) :
  upi_well_formed s <->
  count "@" s = 1%nat /\ first_char s <> Some "@"%char
  /\ last_char s <> Some "@"%char.
Proof.
  split.
  - intros (l & d & -> & Hl & Hd & Fl & Fd).
    change ("@" ++ d)%string with (String "@" d). repeat split.
    + rewrite count_app. cbn [count]. rewrite Ascii.eqb_refl.
      apply count_free in Fl, Fd. lia.
    + destruct l as [|a l]; [contradiction|]. cbn [mem append first_char] in *.
      intros [= ->]. now rewrite Ascii.eqb_refl in Fl.
    + rewrite last_char_app by discriminate.
      destruct d as [|b d]; [contradiction|].
      change (last_char (String "@" (String b d))) with (last_char (String b d)).
      intros H. apply last_char_mem in H. congruence.
  - intros (Hc & Hf & Hl). destruct (count_one _ _ Hc) as (l & d & -> & Fl & Fd).
    exists l, d. repeat split; auto.
    + intros ->. now apply Hf.
    + intros ->. apply Hl. now rewrite last_char_app by discriminate.
Qed.

(** X2. A string [upi] is accepted (HTTP 200) exactly when it holds
    one single [@] that is neither its first nor its last character. *)
Theorem X2_verify_upi_single_separator (body : value) (s : string) :
  field body "upi" = Str s ->
  (accepted (verify_upi body) <->
   count "@" s = 1%nat /\ first_char s <> Some "@"%char
   /\ last_char s <> Some "@"%char).
Proof.
  intros Hupi. rewrite <- well_formed_single_separator. split.
  - intros [answer A].
    destruct (verify_upi_decides body s Hupi) as [W | [msg R]]; [exact W|].
    unfold refused in R. rewrite R in A. discriminate A.
  - intros (l & d & -> & Hl & Hd & Fl & Fd).
    rewrite (verify_upi_accepts body l d Hupi Hl Hd Fl Fd). now eexists.
Qed.

(** X11. The domain part is checked to be there and then ignored: two
    valid identifiers with the same local part, sent with the same
    [gateway], get the same answer. *)
Theorem X11_verify_upi_ignores_domain
  (body body' : value) (local domain domain' : string) :
  field body "upi" = Str (local ++ "@" ++ domain) ->
  field body' "upi" = Str (local ++ "@" ++ domain') ->
  field body "gateway" = field body' "gateway" ->
  local <> "" -> domain <> "" -> domain' <> "" ->
  mem "@" local = false -> mem "@" domain = false -> mem "@" domain' = false ->
  verify_upi body = verify_upi body'.
Proof.
  intros U U' G Hl Hd Hd' Fl Fd Fd'.
  rewrite (verify_upi_accepts body local domain U Hl Hd Fl Fd).
  rewrite (verify_upi_accepts body' local domain' U' Hl Hd' Fl Fd').
  now rewrite G.
Qed.

Lemma upper_fixed (c : ascii) : upper c = c <-> lowercase c = false.
Proof.
  unfold upper, lowercase. destruct (_ && _) eqn:E; split; try easy.
  intros H. exfalso.
  apply andb_true_iff in E as [E1 E2].
  apply Nat.leb_le in E1, E2.
  apply (f_equal nat_of_ascii) in H.
  rewrite nat_ascii_embedding in H by lia. lia.
Qed.

(** X12. The display name of a valid identifier whose local part
    starts with a Basic Latin character is the local part itself
    unless that character is a small letter [a]-[z]: a capital, a
    digit or a symbol in front leaves the name as it came. *)
Theorem X12_verify_upi_name_kept
  (body : value) (c : ascii) (rest domain : string) :
  field body "upi" = Str (String c rest ++ "@" ++ domain) ->
  (nat_of_ascii c < 128)%nat ->
  domain <> "" ->
  mem "@" (String c rest) = false -> mem "@" domain = false ->
  exists name : string,
    verify_upi body =
    Run [Sleep 600]
        (Normal (Sent 200 (Object [("verified", Bool true);
                                   ("name", Str name);
                                   ("gateway", js_or (field body "gateway") Null)])))
    /\ (name = String c rest <-> lowercase c = false).
Proof.
  intros U _ Hd Fl Fd.
  rewrite (verify_upi_accepts body (String c rest) domain U
             ltac:(discriminate) Hd Fl Fd).
  eexists. split; [reflexivity|].
  cbn [charAt toUpperCase]. rewrite slice_1. cbn [append].
  rewrite <- upper_fixed. split; [now intros [= ]| now intros ->].
Qed.

(** X3. A body that is not an object (a JSON string, number, boolean
    or array, or no body at all) has none of the fields the handlers
    read: each handler answers with its validation error. *)
Theorem X3_body_not_an_object
  (body api_key : value) (create : value -> completion value) (now : Z) :
  (forall props, body <> Object props) ->
  refused "Message is required" (chat body api_key create)
  /\ refused "UPI ID is required" (verify_upi body)
  /\ refused "method and amount required" (process_payment body now).
Proof.
  intros H.
  assert (F : field body "message" = Undefined /\ field body "upi" = Undefined
              /\ field body "method" = Undefined).
  { unfold field, js_or.
    destruct body as [| |b|n|s|l|props]; try (now repeat split).
    - now destruct b.
    - now destruct (truthy (Number n)).
    - now destruct (truthy (Str s)).
    - now destruct (H props). }
  destruct F as (Fm & Fu & Fp).
  unfold refused, chat, verify_upi, process_payment.
  rewrite Fm, Fu, Fp. now repeat split.
Qed.

(** X13. The simulated latency is paid by accepted requests only: a
    verification waits 600 ms and a payment 800 ms exactly when it is
    answered with HTTP 200; a refusal, or a throw, comes at once. *)
Theorem X13_delay_only_when_accepted (body : value) (now : Z) :
  (trace (verify_upi body) = [Sleep 600] /\ accepted (verify_upi body)
   \/ trace (verify_upi body) = [] /\ ~ accepted (verify_upi body))
  /\ (trace (process_payment body now) = [Sleep 800]
      /\ accepted (process_payment body now)
      \/ trace (process_payment body now) = []
         /\ ~ accepted (process_payment body now)).
Proof.
  unfold accepted. split.
  - unfold verify_upi. destruct (falsy (field body "upi")).
    + right. split; [reflexivity | intros [a A]; discriminate A].
    + destruct (field body "upi");
        try (right; split; [reflexivity | intros [a A]; discriminate A]).
      destruct (negb _ || _ || _).
      * right. split; [reflexivity | intros [a A]; discriminate A].
      * left. split; [reflexivity | now eexists].
  - unfold process_payment. destruct (falsy _ || falsy _).
    + right. split; [reflexivity | intros [a A]; discriminate A].
    + left. split; [reflexivity | now eexists].
Qed.

(** *** POST /chat *)

(** The whole run with a credential and a non-empty message string:
    nothing is logged when a reply text comes back; a throw is logged
    as it is, and then the message that goes into the debug field. *)
Lemma chat_live_run
  (body api_key : value) (create : value -> completion value) (M : string) :
  field body "message" = Str M -> M <> "" ->
  truthy api_key = true ->
  chat body api_key create =
  match (response <- create (completion_request (Str M)) ;;
         replyText response) with
  | Normal text => Run [] (Normal (Sent 200 (Object [("reply", text)])))
  | Throw error =>
      Run [ConsoleError [Str "Error in /api/ai/chat:"; error];
           ConsoleWarn [Str "/api/ai/chat fallback reply returned. Error:";
                        errMessage error]]
          (Normal (Sent 200 (Object
             [("reply", Str (apology_prefix ++ M ++ apology_suffix));
              ("_debug", Object [("error", errMessage error)])])))
  end.
Proof.
  intros Hm HM Hk. unfold chat, falsy. rewrite Hm, Hk.
  apply String.eqb_neq in HM. cbn [truthy]. rewrite HM. cbn [negb].
  now destruct (bind _ _).
Qed.

(** X5. The common response shape: when the provider returns a list of
    choices whose first one carries a non-empty string as its message
    content, that string is the reply, sent with HTTP 200, without a
    debug field and without anything logged. *)
Theorem X5_chat_first_choice_content
  (body api_key : value) (create : value -> completion value)
  (M : string) (response first : value) (rest : list value) (content : string) :
  field body "message" = Str M -> M <> "" ->
  truthy api_key = true ->
  create (completion_request (Str M)) = Normal response ->
  opt response "choices" = Array (first :: rest) ->
  opt (opt first "message") "content" = Str content -> content <> "" ->
  chat body api_key create =
  Run [] (Normal (Sent 200 (Object [("reply", Str content)]))).
Proof.
  intros Hm HM Hk Hc Hch Hcontent Hne.
  rewrite (chat_live_run body api_key create M Hm HM Hk), Hc. cbn [bind].
  rewrite replyText_chain by now rewrite Hch.
  unfold reply_chain, extractors, first_choice. rewrite Hch.
  cbn [opt_at nullish elem nth first_truthy]. rewrite Hcontent.
  apply String.eqb_neq in Hne. cbn [truthy]. now rewrite Hne.
Qed.

(** X6. Whatever the response, a reply text that comes out of the
    extraction is never empty or otherwise falsy, and it is never made
    up: it is the value of one of the four extractors, or the sentinel
    ["(no reply from AI)"]. *)
Theorem X6_reply_text_sound (response text : value) :
  replyText response = Normal text ->
  truthy text = true
  /\ (text = no_reply \/ In text (extractors response)).
Proof.
  assert (D : forall t : value,
             (text' <-
                (if falsy t && truthy (opt response "data")
                 then data <- get response "data" ;;
                      Normal (js_or
                                (opt (opt (opt_at (opt data "choices") 0) "message") "content")
                                (opt (opt_at (opt data "choices") 0) "text"))
                 else Normal t) ;;
              Normal (if falsy text' then no_reply else text')) = Normal text ->
             (truthy t = true -> In t (extractors response)) ->
             truthy text = true
             /\ (text = no_reply \/ In text (extractors response))).
  { intros t H Ht.
    pose proof (eq_trans (eq_sym (replyText_data response t)) H) as E.
    injection E as E. destruct (truthy t) eqn:T.
    - subst text. auto.
    - cbn [first_truthy] in E. unfold extractors. cbn [In].
      destruct (truthy (opt (opt (first_choice (opt response "data")) "message")
                            "content")) eqn:E3.
      + subst text. rewrite E3. auto 8.
      + destruct (truthy (opt (first_choice (opt response "data")) "text")) eqn:E4;
          subst text; [rewrite E4|]; auto 8. }
  unfold replyText. destruct (truthy (opt response "choices")) eqn:C.
  - rewrite (get_truthy _ _ C). cbn [bind].
    destruct (bind (get (opt response "choices") "length") _) as [b|e];
      [|discriminate].
    cbn [bind]. destruct b.
    + rewrite (at_truthy _ 0 C). cbn [bind]. intros H.
      apply (D _ H). unfold js_or, extractors, first_choice.
      destruct (truthy (opt (opt _ "message") "content")) eqn:E1; simpl; auto.
    + cbn [bind]. intros H. apply (D _ H). discriminate.
  - cbn [bind]. intros H. apply (D _ H). discriminate.
Qed.

(** X7. The message put in the debug field is the first candidate that
    is something, in the order: message of the provider's error
    payload, the error's own message, serialised response payload; it
    is ["Internal server error"] when there is none, as for a thrown
    [undefined] or [null], and so it is never empty. *)
Theorem X7_error_message_chain (error : value) :
  errMessage error =
  match first_truthy (error_candidates error) with
  | Some v => v
  | None => Str "Internal server error"
  end
  /\ truthy (errMessage error) = true
  /\ (nullish error = true -> errMessage error = Str "Internal server error").
Proof.
  assert (E : errMessage error =
              match first_truthy (error_candidates error) with
              | Some v => v
              | None => Str "Internal server error"
              end).
  { unfold errMessage, error_candidates, js_or. cbn [first_truthy].
    destruct (truthy (opt (opt (opt (opt error "response") "data") "error")
                          "message")) eqn:E1;
      cbn iota; rewrite ?E1; cbn iota; try reflexivity.
    destruct (truthy (opt error "message")) eqn:E2;
      cbn iota; rewrite ?E2; cbn iota; try reflexivity.
    destruct (truthy (js_and _ _)) eqn:E3; cbn iota; rewrite ?E3; reflexivity. }
  repeat split.
  - exact E.
  - rewrite E. destruct (first_truthy _) eqn:F; [|reflexivity].
    now apply first_truthy_Some in F.
  - intros N. rewrite E. now destruct error.
Qed.

(** X8. A request whose [message] is a string is always answered,
    whatever the credential and whatever the provider does: with HTTP
    400 when the string is empty, with HTTP 200 otherwise. *)
Theorem X8_chat_string_message_answered
  (body api_key : value) (create : value -> completion value) (M : string) :
  field body "message" = Str M ->
  exists answer : value,
    result (chat body api_key create) =
    Normal (Sent (if (M =? "")%string then 400 else 200) answer).
Proof.
  intros Hm. destruct (M =? "")%string eqn:E.
  - unfold chat, falsy. rewrite Hm. cbn [truthy]. rewrite E. now eexists.
  - apply String.eqb_neq in E. destruct (truthy api_key) eqn:K.
    + rewrite (chat_live_run body api_key create M Hm E K).
      destruct (bind _ _); now eexists.
    + unfold chat, falsy. rewrite Hm, K. cbn [truthy].
      rewrite (proj2 (String.eqb_neq _ _) E). now eexists.
Qed.

(** X14. A truthy [message] that is not a string is written into the
    reply through the host's [ToString]; the template literals stand
    outside the [try] block, so a conversion that throws leaves the
    request unanswered, on the demo path as in the [catch] block. *)
Theorem X14_chat_message_not_a_string
  (body api_key : value) (create : value -> completion value) :
  truthy (field body "message") = true ->
  (forall s : string, field body "message" <> Str s) ->
  (forall text : string,
      ToString_ext (field body "message") = Normal text ->
      truthy api_key = false ->
      result (chat body api_key create) =
      Normal (Sent 200 (Object [("reply", Str (demo_prefix ++ text ++ dquote))])))
  /\ (forall e : value,
        ToString_ext (field body "message") = Throw e ->
        truthy api_key = false ->
        result (chat body api_key create) = Throw e)
  /\ (forall e error : value,
        ToString_ext (field body "message") = Throw e ->
        truthy api_key = true ->
        create (completion_request (field body "message")) = Throw error ->
        chat body api_key create =
        Run [ConsoleError [Str "Error in /api/ai/chat:"; error]] (Throw e)).
Proof.
  intros Ht Hs.
  assert (S : to_string (field body "message") = ToString_ext (field body "message")).
  { destruct (field body "message"); try reflexivity. now destruct (Hs s). }
  unfold chat, falsy, template. rewrite Ht, S. cbn [negb]. repeat split.
  - intros text -> ->. reflexivity.
  - intros e -> ->. reflexivity.
  - intros e error -> -> ->. reflexivity.
Qed.

(** The test [choices.length > 0] on an object with keys of its own
    reads its [length] property. *)
Lemma keyed_choices_guard (response : value) (props : list (string * value)) :
  opt response "choices" = Object props ->
  replyText response =
  (has_choices <- gt0 (own "length" props) ;;
   text <-
     (if has_choices
      then Normal (js_or (opt (opt (own "0" props) "message") "content")
                         (opt (own "0" props) "text"))
      else Normal Null) ;;
   text <-
     (if falsy text && truthy (opt response "data")
      then data <- get response "data" ;;
           Normal (js_or
                     (opt (opt (opt_at (opt data "choices") 0) "message") "content")
                     (opt (opt_at (opt data "choices") 0) "text"))
      else Normal text) ;;
   Normal (if falsy text then no_reply else text)).
Proof.
  intros Hc. unfold replyText.
  assert (T : truthy (opt response "choices") = true) by now rewrite Hc.
  rewrite T, (get_truthy _ _ T), Hc. reflexivity.
Qed.

(** X15. Reading the response happens inside the [try] block: when
    [choices] is an object whose [length] cannot be converted to a
    number, the exception of the comparison [length > 0] is caught
    like a provider failure, logged, and answered with the apology. *)
Theorem X15_chat_extraction_throws
  (body api_key : value) (create : value -> completion value) (M : string)
  (response : value) (props : list (string * value)) (e : value) :
  field body "message" = Str M -> M <> "" ->
  truthy api_key = true ->
  create (completion_request (Str M)) = Normal response ->
  opt response "choices" = Object props ->
  to_number (own "length" props) = Throw e ->
  chat body api_key create =
  Run [ConsoleError [Str "Error in /api/ai/chat:"; e];
       ConsoleWarn [Str "/api/ai/chat fallback reply returned. Error:";
                    errMessage e]]
      (Normal (Sent 200 (Object
         [("reply", Str (apology_prefix ++ M ++ apology_suffix));
          ("_debug", Object [("error", errMessage e)])]))).
Proof.
  intros Hm HM Hk Hc Hch He.
  rewrite (chat_live_run body api_key create M Hm HM Hk), Hc. cbn [bind].
  rewrite (keyed_choices_guard response props Hch). unfold gt0.
  now rewrite He.
Qed.

(** X16. The first two extractors are tried only after the test
    [choices.length > 0]: when [choices] is an object whose [length]
    is missing or not above zero, its element [0] is never read, and
    the reply comes from the [data] envelope or is the sentinel. *)
Theorem X16_reply_text_length_guard
  (response : value) (props : list (string * value)) :
  opt response "choices" = Object props ->
  (forall n : number,
      to_number (own "length" props) = Normal n -> number_gt0 n = false ->
      replyText response =
      Normal match first_truthy (data_extractors response) with
             | Some v => v
             | None => no_reply
             end)
  /\ (assoc "length" props = None ->
      replyText response =
      Normal match first_truthy (data_extractors response) with
             | Some v => v
             | None => no_reply
             end).
Proof.
  intros Hch.
  assert (G : forall n : number,
             to_number (own "length" props) = Normal n -> number_gt0 n = false ->
             replyText response =
             Normal match first_truthy (data_extractors response) with
                    | Some v => v
                    | None => no_reply
                    end).
  { intros n Hn Hg. rewrite (keyed_choices_guard response props Hch).
    unfold gt0. rewrite Hn. cbn [bind]. rewrite Hg. cbn [bind].
    etransitivity; [apply replyText_data | reflexivity]. }
  split; [exact G|].
  intros Hl. apply (G NaN); [|reflexivity].
  unfold own. now rewrite Hl.
Qed.

(** *** POST /process-payment *)

(** The six digits depend on the residue modulo [10^6] only. *)
Lemma last_six_digits_mod (n : Z) :
  last_six_digits (n mod 1000000) = last_six_digits n.
Proof.
  unfold last_six_digits.
  replace (n mod 1000000 / 100000 mod 10) with (n / 100000 mod 10)
    by (Z.to_euclidean_division_equations; lia).
  replace (n mod 1000000 / 10000 mod 10) with (n / 10000 mod 10)
    by (Z.to_euclidean_division_equations; lia).
  replace (n mod 1000000 / 1000 mod 10) with (n / 1000 mod 10)
    by (Z.to_euclidean_division_equations; lia).
  replace (n mod 1000000 / 100 mod 10) with (n / 100 mod 10)
    by (Z.to_euclidean_division_equations; lia).
  replace (n mod 1000000 / 10 mod 10) with (n / 10 mod 10)
    by (Z.to_euclidean_division_equations; lia).
  replace (n mod 1000000 mod 10) with (n mod 10)
    by (Z.to_euclidean_division_equations; lia).
  reflexivity.
Qed.

(** Read back, the six digits are that residue. *)
Lemma last_six_digits_numeral (n : Z) :
  numeral 0 (last_six_digits n) = n mod 1000000.
Proof.
  unfold last_six_digits. cbn [numeral].
  rewrite !digit_value by (apply Z.mod_pos_bound; lia).
  Z.to_euclidean_division_equations; lia.
Qed.

(** X9. Transaction identifiers are not unique: for an accepted
    request, two timestamps of six digits or more give the same answer,
    [txId] included, exactly when they are congruent modulo [10^6],
    that is a multiple of 1000 seconds apart. *)
Theorem X9_txId_collisions (body : value) (now now' : Z) :
  truthy (field body "method") = true ->
  truthy (field body "amount") = true ->
  100000 <= now -> 100000 <= now' ->
  (process_payment body now = process_payment body now'
   <-> now mod 1000000 = now' mod 1000000).
Proof.
  intros Hm Ha Hn Hn'. unfold process_payment, falsy. rewrite Hm, Ha.
  cbn [negb orb]. rewrite (txId_last_six now Hn), (txId_last_six now' Hn').
  split.
  - intros E. cbn [append] in E.
    assert (L : last_six_digits now = last_six_digits now') by congruence.
    rewrite <- !last_six_digits_numeral. now rewrite L.
  - intros E.
    rewrite <- (last_six_digits_mod now), E, last_six_digits_mod. reflexivity.
Qed.

Lemma digits_length (fuel : nat) : forall (k : nat) (n : Z) (acc : string),
  0 <= n < 10 ^ Z.of_nat (S k) ->
  (String.length (digits fuel n acc) <= S k + String.length acc)%nat.
Proof.
  induction fuel as [|fuel IH]; intros k n acc H; simpl digits; [lia|].
  destruct (n / 10 =? 0) eqn:E; [simpl; lia|].
  apply Z.eqb_neq in E.
  rewrite Nat2Z.inj_succ, Z.pow_succ_r in H by lia.
  destruct k as [|k].
  - change (10 ^ Z.of_nat 0) with 1 in H.
    exfalso. apply E. apply Z.div_small. lia.
  - specialize (IH k (n / 10) (String (digit (n mod 10)) acc)).
    simpl String.length in IH.
    assert (0 <= n / 10 < 10 ^ Z.of_nat (S k))
      by (split; [apply Z.div_pos; lia | apply Z.div_lt_upper_bound; lia]).
    specialize (IH ltac:(assumption)). lia.
Qed.

Lemma slice_short (s : string) :
  (String.length s <= 6)%nat -> slice s (-6) = s.
Proof.
  intros H. unfold slice. cbn [Z.ltb Z.compare].
  replace (Z.max _ 0) with 0 by lia. reflexivity.
Qed.

(** X10. On a clock that reads less than [10^6] milliseconds the
    decimal form of the timestamp has six characters at most and
    [slice(-6)] keeps all of it: the [txId] is ["TXN-"] followed by the
    whole timestamp, which is shorter than six digits below [100000]. *)
Theorem X10_txId_short_timestamp (body : value) (now : Z) :
  truthy (field body "method") = true ->
  truthy (field body "amount") = true ->
  0 <= now < 1000000 ->
  result (process_payment body now) =
  Normal (Sent 200 (Object [("success", Bool true);
                            ("txId", Str ("TXN-" ++ integer_toString now));
                            ("method", field body "method");
                            ("amount", field body "amount");
                            ("details", field body "details")]))
  /\ numeral 0 (integer_toString now) = now
  /\ (now < 100000 -> (String.length (integer_toString now) < 6)%nat).
Proof.
  intros Hm Ha Hn.
  assert (I : integer_toString now = decimal now).
  { unfold integer_toString. destruct (now <? 0) eqn:E; [|reflexivity].
    apply Z.ltb_lt in E. lia. }
  repeat split.
  - unfold process_payment, falsy. rewrite Hm, Ha. cbn [negb orb result].
    rewrite slice_short; [reflexivity|].
    rewrite I. apply (digits_length _ 5 now "").
    change (10 ^ Z.of_nat 6) with 1000000. lia.
  - rewrite I. apply decimal_faithful. lia.
  - intros H. rewrite I.
    pose proof (digits_length (S (Z.to_nat (Z.log2 now))) 4 now "") as L.
    change (10 ^ Z.of_nat 5) with 100000 in L. specialize (L ltac:(lia)).
    change (String.length "") with 0%nat in L. unfold decimal. lia.
Qed.

End Routes.

(** ** The routes on concrete requests *)

Local Notation "'sample_chat'" :=
  (chat sample_ToString sample_ToNumber sample_stringify) (at level 0).

Example verify_upi_two_separators :
  result (verify_upi (Object [("upi", Str "a@b@c")])) =
  Normal (Sent 400 (validation_error "Invalid UPI ID format")).
Proof. reflexivity. Qed.

Example verify_upi_no_domain :
  result (verify_upi (Object [("upi", Str "john@")])) =
  Normal (Sent 400 (validation_error "Invalid UPI ID format")).
Proof. reflexivity. Qed.

(** A truthy [upi] that is not a string has no [split] to call: the
    handler throws before it answers. *)
Example verify_upi_number :
  result (verify_upi (Object [("upi", of_Z 42)])) =
  Throw (TypeError "upi.split is not a function").
Proof. reflexivity. Qed.

Example process_payment_card :
  result (process_payment
            (Object [("method", Str "card"); ("amount", of_Z 500)])
            1700000123456) =
  Normal (Sent 200 (Object [("success", Bool true);
                            ("txId", Str "TXN-123456");
                            ("method", Str "card");
                            ("amount", of_Z 500);
                            ("details", Undefined)])).
Proof. reflexivity. Qed.

Example chat_first_choice :
  result (sample_chat
            (Object [("message", Str "hi")]) (Str "sk-test")
            (fun _ => Normal (Object
               [("choices",
                 Array [Object [("message",
                                 Object [("role", Str "assistant");
                                         ("content", Str "Hello!")])]])]))) =
  Normal (Sent 200 (Object [("reply", Str "Hello!")])).
Proof. reflexivity. Qed.

Example chat_data_envelope :
  result (sample_chat
            (Object [("message", Str "hi")]) (Str "sk-test")
            (fun _ => Normal (Object
               [("data",
                 Object [("choices", Array [Object [("text", Str "Hello!")]])])]))) =
  Normal (Sent 200 (Object [("reply", Str "Hello!")])).
Proof. reflexivity. Qed.

(** *** C1 *)

(** A response with an empty list of choices is an upstream failure,
    yet the answer is the sentinel reply without any debug field, not
    the apology. *)
Lemma C1_unusable_shape_counterexample :
  ~ failure_answered_with_apology sample_ToString sample_ToNumber sample_stringify
      (Object [("message", Str "hi")]) (Str "sk-test")
      (fun _ => Normal (Object [("choices", Array [])])) "hi".
Proof.
  intros H. destruct H as [err E].
  - repeat constructor.
  - vm_compute in E. discriminate E.
Qed.

Lemma C1_witness :
  let body := Object [("message", Str "hi")] in
  let create := fun _ : value => Throw (Object [("message", Str "quota exceeded")]) in
  field body "message" = Str "hi"
  /\ truthy (Str "sk-test") = true
  /\ result (sample_chat body (Str "sk-test") create) =
     Normal (Sent 200 (Object
       [("reply", Str (apology_prefix ++ "hi" ++ apology_suffix));
        ("_debug", Object [("error", Str "quota exceeded")])])).
Proof.
  intros body create. split; [reflexivity | split; [reflexivity|]].
  destruct (C1_chat_upstream_failure
              sample_ToString sample_ToNumber sample_stringify
              body (Str "sk-test") create "hi"
              eq_refl ltac:(discriminate) eq_refl) as (T & _).
  exact (proj1 (T _ eq_refl)).
Defined.

(** *** C2 *)

Lemma C2_witness :
  field (Object [("message", Str "hi")]) "message" = Str "hi"
  /\ truthy Undefined = false
  /\ result (sample_chat (Object [("message", Str "hi")]) Undefined
               (fun _ => Normal Null)) =
     Normal (Sent 200 (Object
       [("reply",
         Str ("Demo reply (OpenAI key not configured). You asked: "
              ++ dquote ++ "hi" ++ dquote))])).
Proof.
  split; [reflexivity | split; [reflexivity|]].
  exact (proj1 (C2_chat_demo_reply
                  sample_ToString sample_ToNumber sample_stringify
                  (Object [("message", Str "hi")]) Undefined
                  (fun _ => Normal Null) "hi"
                  eq_refl ltac:(discriminate) eq_refl)).
Defined.

(** *** C3 *)

Lemma mem_app (c : ascii) (l r : string) :
  mem c (l ++ String c r) = true.
Proof.
  induction l as [|a l IH]; simpl.
  - now rewrite Ascii.eqb_refl.
  - rewrite IH. apply orb_true_r.
Qed.

Lemma no_separator_ill_formed (s : string) :
  mem "@" s = false -> ~ upi_well_formed s.
Proof.
  intros H (local & domain & -> & _).
  change ("@" ++ domain)%string with (String "@" domain) in H.
  rewrite mem_app in H. discriminate H.
Qed.

Lemma C3_witness :
  let body := Object [("upi", Str "johnpaytm")] in
  ~ upi_well_formed "johnpaytm"
  /\ verify_upi body =
     Run [] (Normal (Sent 400 (Object [("error", Bool true);
                                       ("message", Str "Invalid UPI ID format")])))
  /\ verify_upi (Object []) =
     Run [] (Normal (Sent 400 (Object [("error", Bool true);
                                       ("message", Str "UPI ID is required")]))).
Proof.
  intros body.
  assert (N : ~ upi_well_formed "johnpaytm")
    by (apply no_separator_ill_formed; reflexivity).
  split; [exact N | split].
  - exact (proj1 (C3_verify_upi_validation body) "johnpaytm"
             eq_refl ltac:(discriminate) N).
  - exact (proj2 (C3_verify_upi_validation (Object [])) (or_introl eq_refl)).
Defined.

(** *** C4 *)


(** *** C5 *)

(** An empty [gateway] string is supplied, and comes back as [null]. *)
Lemma C5_empty_gateway_counterexample :
  ~ gateway_echoed_verbatim [("upi", Str "john@paytm"); ("gateway", Str "")].
Proof.
  intros H. destruct (H _ eq_refl) as [Hv _].
  specialize (Hv (Str "") eq_refl). discriminate Hv.
Qed.

Lemma john_well_formed : upi_well_formed "john@paytm".
Proof.
  exists "john", "paytm". repeat split; discriminate.
Qed.

Lemma C5_witness :
  exists name gateway : value,
    result (verify_upi (Object [("upi", Str "john@paytm");
                                ("gateway", Str "razorpay")])) =
    Normal (Sent 200 (Object [("verified", Bool true);
                              ("name", name);
                              ("gateway", gateway)]))
    /\ gateway = Str "razorpay".
Proof.
  destruct (C5_verify_upi_gateway
              (Object [("upi", Str "john@paytm"); ("gateway", Str "razorpay")])
              "john@paytm" eq_refl john_well_formed)
    as (name & gateway & E & T & _).
  exists name, gateway. split; [exact E | exact (T eq_refl)].
Defined.

(** *** C6 *)

Lemma C6_witness :
  truthy (field (Object [("method", Str "card"); ("amount", of_Z 0)]) "amount")
  = false
  /\ process_payment (Object [("method", Str "card"); ("amount", of_Z 0)])
                     1700000123456 =
     Run [] (Normal (Sent 400 (Object
       [("error", Bool true); ("message", Str "method and amount required")]))).
Proof.
  split; [reflexivity|].
  exact (proj1 (C6_process_payment_validation
                  (Object [("method", Str "card"); ("amount", of_Z 0)])
                  1700000123456)
               (or_intror eq_refl)).
Defined.

(** *** C7 *)

Lemma C7_witness :
  let body := Object [("method", Str "card"); ("amount", of_Z 500)] in
  100000 <= 1700000123456
  /\ result (process_payment body 1700000123456) =
     Normal (Sent 200 (Object [("success", Bool true);
                               ("txId", Str ("TXN-" ++ last_six_digits 1700000123456));
                               ("method", Str "card");
                               ("amount", of_Z 500);
                               ("details", Undefined)])).
Proof.
  intros body. split; [lia|].
  exact (proj1 (C7_process_payment_success body 1700000123456
                  eq_refl eq_refl ltac:(lia))).
Defined.

(** *** C8 *)

Lemma C8_witness :
  truthy (field (Object [("message", Str "")]) "message") = false
  /\ sample_chat (Object [("message", Str "")]) (Str "sk-test")
                 (fun _ => Normal Null) =
     Run [] (Normal (Sent 400 (Object [("error", Bool true);
                                       ("message", Str "Message is required")]))).
Proof.
  split; [reflexivity|].
  exact (C8_chat_message_required
           sample_ToString sample_ToNumber sample_stringify
           (Object [("message", Str "")]) (Str "sk-test")
           (fun _ => Normal Null) (or_intror (or_introl eq_refl))).
Defined.

(** *** C9 *)

(** A [choices] that is an object with an element [0] and no [length]:
    the second extractor yields ["x"], the handler answers with the
    sentinel. *)
Lemma C9_keyed_choices_counterexample :
  let response := Object [("choices", Object [("0", Object [("text", Str "x")])])] in
  nth 1 (extractors response) Undefined = Str "x"
  /\ reply_chain response = Str "x"
  /\ replyText sample_ToNumber response = Normal (Str "(no reply from AI)")
  /\ replyText sample_ToNumber response <> Normal (reply_chain response).
Proof.
  intros response. repeat split. intros H. vm_compute in H. discriminate H.
Qed.

Lemma C9_witness :
  let response :=
    Object [("choices", Array []);
            ("data", Object [("choices", Array [Object [("text", Str "plain")]])])] in
  has_choices sample_ToNumber response = Normal false
  /\ first_truthy (guarded_extractors false response) = Some (Str "plain")
  /\ replyText sample_ToNumber response = Normal (Str "plain").
Proof.
  intros response. split; [reflexivity | split; [reflexivity|]].
  destruct (proj1 (proj2 (C9_reply_text_chain sample_ToNumber response))
              false eq_refl) as (V & _).
  exact (proj1 (V (Str "plain") eq_refl)).
Defined.

(** *** C10 *)

Lemma C10_witness :
  sample_chat Undefined (Str "sk-test") (fun _ => Normal Null) =
  Run [] (Normal (Sent 400 (validation_error "Message is required")))
  /\ verify_upi Undefined =
     Run [] (Normal (Sent 400 (validation_error "UPI ID is required")))
  /\ process_payment Undefined 1700000123456 =
     Run [] (Normal (Sent 400 (validation_error "method and amount required"))).
Proof.
  exact (proj1 (C10_absent_body
                  sample_ToString sample_ToNumber sample_stringify
                  Undefined (Str "sk-test") (fun _ => Normal Null)
                  1700000123456 (or_introl eq_refl))).
Defined.

(** ** The further properties on concrete requests *)

Lemma X1_witness :
  truthy (field (Object [("upi", of_Z 42)]) "upi") = true
  /\ verify_upi (Object [("upi", of_Z 42)]) =
     Run [] (Throw (TypeError "upi.split is not a function")).
Proof.
  split; [reflexivity|].
  apply (X1_verify_upi_not_a_string (Object [("upi", of_Z 42)]) eq_refl).
  intros s H. discriminate H.
Defined.

Lemma X2_witness :
  count "@" "john@paytm" = 1%nat
  /\ accepted (verify_upi (Object [("upi", Str "john@paytm")])).
Proof.
  split; [reflexivity|].
  apply (proj2 (X2_verify_upi_single_separator
                  (Object [("upi", Str "john@paytm")]) "john@paytm" eq_refl)).
  repeat split; discriminate.
Defined.

Lemma X3_witness :
  refused "Message is required"
    (sample_chat (Str "hello") (Str "sk-test") (fun _ => Normal Null))
  /\ refused "UPI ID is required" (verify_upi (Str "hello"))
  /\ refused "method and amount required"
       (process_payment (Str "hello") 1700000123456).
Proof.
  apply (X3_body_not_an_object sample_ToString sample_ToNumber sample_stringify).
  intros props H. discriminate H.
Defined.

Lemma X5_witness :
  let first := Object [("message", Object [("role", Str "assistant");
                                           ("content", Str "Hello!")])] in
  let response := Object [("id", Str "chatcmpl-1"); ("choices", Array [first])] in
  opt response "choices" = Array [first]
  /\ sample_chat (Object [("message", Str "hi")]) (Str "sk-test")
                 (fun _ => Normal response) =
     Run [] (Normal (Sent 200 (Object [("reply", Str "Hello!")]))).
Proof.
  intros first response. split; [reflexivity|].
  apply (X5_chat_first_choice_content
           sample_ToString sample_ToNumber sample_stringify
           (Object [("message", Str "hi")]) (Str "sk-test")
           (fun _ => Normal response) "hi" response first [] "Hello!");
    try reflexivity; discriminate.
Defined.

Lemma X6_witness :
  let response := Object [("choices", Array [Object [("text", Str "plain")]])] in
  replyText sample_ToNumber response = Normal (Str "plain")
  /\ truthy (Str "plain") = true
  /\ (Str "plain" = no_reply \/ In (Str "plain") (extractors response)).
Proof.
  intros response. split; [reflexivity|].
  exact (X6_reply_text_sound sample_ToNumber response (Str "plain") eq_refl).
Defined.

Lemma X7_witness :
  nullish Undefined = true
  /\ errMessage sample_stringify Undefined = Str "Internal server error".
Proof.
  split; [reflexivity|].
  exact (proj2 (proj2 (X7_error_message_chain sample_stringify Undefined)) eq_refl).
Defined.

Lemma X8_witness :
  exists answer : value,
    result (sample_chat (Object [("message", Str "hi")]) (Str "sk-test")
                        (fun _ => Throw Undefined)) =
    Normal (Sent 200 answer).
Proof.
  exact (X8_chat_string_message_answered
           sample_ToString sample_ToNumber sample_stringify
           (Object [("message", Str "hi")]) (Str "sk-test")
           (fun _ => Throw Undefined) "hi" eq_refl).
Defined.

Lemma X9_witness :
  let body := Object [("method", Str "card"); ("amount", of_Z 500)] in
  1700000123456 mod 1000000 = 1700001123456 mod 1000000
  /\ process_payment body 1700000123456 = process_payment body 1700001123456.
Proof.
  intros body. split; [reflexivity|].
  apply (proj2 (X9_txId_collisions body 1700000123456 1700001123456
                  eq_refl eq_refl ltac:(lia) ltac:(lia))).
  reflexivity.
Defined.

Lemma X10_witness :
  let body := Object [("method", Str "card"); ("amount", of_Z 500)] in
  0 <= 99999 < 1000000
  /\ result (process_payment body 99999) =
     Normal (Sent 200 (Object [("success", Bool true);
                               ("txId", Str "TXN-99999");
                               ("method", Str "card");
                               ("amount", of_Z 500);
                               ("details", Undefined)])).
Proof.
  intros body. split; [lia|].
  exact (proj1 (X10_txId_short_timestamp body 99999
                  eq_refl eq_refl ltac:(lia))).
Defined.

Lemma X11_witness :
  verify_upi (Object [("upi", Str "john@paytm")]) =
  verify_upi (Object [("upi", Str "john@okaxis")]).
Proof.
  apply (X11_verify_upi_ignores_domain
           (Object [("upi", Str "john@paytm")])
           (Object [("upi", Str "john@okaxis")])
           "john" "paytm" "okaxis");
    try reflexivity; discriminate.
Defined.

Lemma X12_witness :
  lowercase "J" = false
  /\ exists name : string,
      verify_upi (Object [("upi", Str "John@paytm")]) =
      Run [Sleep 600]
          (Normal (Sent 200 (Object [("verified", Bool true);
                                     ("name", Str name);
                                     ("gateway", Null)])))
      /\ (name = "John" <-> lowercase "J" = false).
Proof.
  split; [reflexivity|].
  apply (X12_verify_upi_name_kept
           (Object [("upi", Str "John@paytm")]) "J" "ohn" "paytm");
    try reflexivity; [apply Nat.ltb_lt; reflexivity | discriminate].
Defined.

Lemma X13_witness :
  trace (verify_upi (Object [("upi", Str "john@paytm")])) = [Sleep 600]
  /\ accepted (verify_upi (Object [("upi", Str "john@paytm")]))
  \/ trace (verify_upi (Object [("upi", Str "john@paytm")])) = []
     /\ ~ accepted (verify_upi (Object [("upi", Str "john@paytm")])).
Proof.
  exact (proj1 (X13_delay_only_when_accepted
                  (Object [("upi", Str "john@paytm")]) 1700000123456)).
Defined.

Lemma X14_witness :
  truthy (field (Object [("message", Object [])]) "message") = true
  /\ result (sample_chat (Object [("message", Object [])]) Undefined
                         (fun _ => Normal Null)) =
     Normal (Sent 200 (Object
       [("reply", Str (demo_prefix ++ "[object Object]" ++ dquote))])).
Proof.
  split; [reflexivity|].
  assert (N : forall s : string,
             field (Object [("message", Object [])]) "message" <> Str s)
    by (intros s H; discriminate H).
  exact (proj1 (X14_chat_message_not_a_string
                  sample_ToString sample_ToNumber sample_stringify
                  (Object [("message", Object [])]) Undefined
                  (fun _ => Normal Null) eq_refl N)
               "[object Object]" eq_refl eq_refl).
Defined.

Lemma X15_witness :
  let odd := Object [("toString", of_Z 1)] in
  let response := Object [("choices", Object [("length", odd)])] in
  let failing := fun _ : value =>
                   @Throw number (TypeError "Cannot convert object to primitive value") in
  to_number failing odd = Throw (TypeError "Cannot convert object to primitive value")
  /\ result (chat sample_ToString failing sample_stringify
                  (Object [("message", Str "hi")]) (Str "sk-test")
                  (fun _ => Normal response)) =
     Normal (Sent 200 (Object
       [("reply", Str (apology_prefix ++ "hi" ++ apology_suffix));
        ("_debug",
         Object [("error", Str "Cannot convert object to primitive value")])])).
Proof.
  intros odd response failing. split; [reflexivity|].
  exact (f_equal result
           (X15_chat_extraction_throws
              sample_ToString failing sample_stringify
              (Object [("message", Str "hi")]) (Str "sk-test")
              (fun _ => Normal response) "hi" response
              [("length", odd)] _
              eq_refl ltac:(discriminate) eq_refl eq_refl eq_refl eq_refl)).
Defined.

Lemma X16_witness :
  let response := Object [("choices", Object [("0", Object [("text", Str "x")])])] in
  assoc "length" [("0", Object [("text", Str "x")])] = None
  /\ replyText sample_ToNumber response = Normal (Str "(no reply from AI)").
Proof.
  intros response. split; [reflexivity|].
  exact (proj2 (X16_reply_text_length_guard sample_ToNumber response
                  [("0", Object [("text", Str "x")])] eq_refl)
               eq_refl).
Defined.
